(** * Verification of the Hive session layer (connection.go)

    A shallow embedding of [Connect], [ConnectWithUser], [Connection.Close],
    [Connection.Query], [Connection.Exec] and [isSuccessStatus], together
    with the fragment of Go's [fmt] verbs the file uses.

    Conventions.
    - A Go pointer [*T] is an [option T]; [None] is [nil].
    - A Go [(value, error)] result is a pair whose second component is an
      [option error]; [None] is the [nil] error.
    - A run-time panic (nil dereference) is the [Panic] outcome.
    - The remote side is a [Network]: for each RPC a function from the calls
      made so far and the request to the reply.  Every call is appended to
      the log, so "issues no RPC" is "leaves the log unchanged". *)

From Stdlib Require Import ZArith String Ascii List Bool Lia.
Import ListNotations.
Local Open Scope string_scope.
Local Open Scope Z_scope.

(** ** Go values *)

(** A Go [error]: its dynamic type (as [reflect.TypeOf(e).String()] prints
    it) and the text of [e.Error()]. *)
Record error := mkError { err_type : string; err_msg : string }.

(** Outcome of running Go code: a normal return or a run-time panic. *)
Inductive outcome (A : Type) : Type :=
| Ret (a : A)
| Panic (reason : string).
Arguments Ret {A} a.
Arguments Panic {A} reason.

Definition nil_dereference : string :=
  "invalid memory address or nil pointer dereference".

(** ** The fmt fragment *)

(** An operand of a formatting call: its type name and the text the verbs
    [%s], [%v] and [%+v] print for it.  Every operand in connection.go is an
    [error] or a [Stringer], for which the three verbs print the result of
    [Error()], respectively [String()]. *)
Record fmt_arg := mkArg { arg_type : string; arg_text : string }.

Definition arg_of_error (e : error) : fmt_arg :=
  mkArg (err_type e) (err_msg e).

Fixpoint join_extra (args : list fmt_arg) : string :=
  match args with
  | [] => ""
  | [a] => arg_type a ++ "=" ++ arg_text a
  | a :: rest => arg_type a ++ "=" ++ arg_text a ++ ", " ++ join_extra rest
  end.

(** Operands left over when the format is exhausted.  The fmt documentation,
    under format errors: "Too many arguments: %!(EXTRA type=value)", with the
    example [Printf("hi", "guys")] printing [hi%!(EXTRA string=guys)];
    several left-over operands are separated by a comma and a space. *)
Definition extra (args : list fmt_arg) : string :=
  match args with
  | [] => ""
  | _ :: _ => "%!(EXTRA " ++ join_extra args ++ ")"
  end.

Definition is_text_verb (c : ascii) : bool :=
  (Ascii.eqb c "s" || Ascii.eqb c "v")%char.

(** One verb applied to the operands that remain.  The fmt documentation:
    "Too few arguments: %!verb(MISSING)" and "Wrong type or unknown verb:
    %!verb(type=value)". *)
Definition apply_verb (c : ascii) (args : list fmt_arg)
  : string * list fmt_arg :=
  match args with
  | [] => ("%!" ++ String c "(MISSING)", [])
  | a :: rest =>
      if is_text_verb c then (arg_text a, rest)
      else ("%!" ++ String c ("(" ++ arg_type a ++ "=" ++ arg_text a ++ ")"),
            rest)
  end.

(** [fmt.Sprintf] on the fragment connection.go uses: the verbs [%s] and
    [%v], the flag [+], and [%%].  Widths, precisions, argument indexes and
    the other flags do not occur in the file and are not modelled. *)
Fixpoint Sprintf (format : string) (args : list fmt_arg) : string :=
  match format with
  | EmptyString => extra args
  | String c rest =>
      if Ascii.eqb c "%"%char then
        match rest with
        | EmptyString => "%!(NOVERB)" ++ extra args
        | String v rest1 =>
            if Ascii.eqb v "%"%char then String "%"%char (Sprintf rest1 args)
            else if Ascii.eqb v "+"%char then
              match rest1 with
              | EmptyString => "%!(NOVERB)" ++ extra args
              | String v2 rest2 =>
                  let '(out, args') := apply_verb v2 args in
                  out ++ Sprintf rest2 args'
              end
            else
              let '(out, args') := apply_verb v args in
              out ++ Sprintf rest1 args'
        end
      else String c (Sprintf rest args)
  end.

(** [fmt.Errorf] without a [%w] verb, and [errors.New]. *)
Definition Errorf (format : string) (args : list fmt_arg) : error :=
  mkError "*errors.errorString" (Sprintf format args).

Definition errors_New (text : string) : error :=
  mkError "*errors.errorString" text.

(** [s] contains [sub] as a contiguous piece. *)
Definition includes (s sub : string) : Prop :=
  exists pre post, s = pre ++ sub ++ post.

(** ** Thrift library types (github.com/apache/thrift/lib/go/thrift) *)

(** A [*tls.Config]: opaque to this layer, identified by reference. *)
Inductive tls_Config := TLSConfigRef (id : nat).

Record TConfiguration := mkTConfiguration {
  tc_MaxMessageSize : Z;
  tc_MaxFrameSize : Z;
  tc_ConnectTimeout : Z;
  tc_SocketTimeout : Z;
  tc_TLSConfig : option tls_Config;
  tc_TBinaryStrictRead : option bool;
  tc_TBinaryStrictWrite : option bool;
  tc_THeaderProtocolID : option Z
}.

Record TSocket := mkTSocket { sock_addr : string; sock_cfg : TConfiguration }.

Record TBinaryProtocolFactory :=
  mkTBinaryProtocolFactory { proto_cfg : TConfiguration }.

(** [thrift.NewTSocketConf] allocates: the pointer it returns is not nil. *)
Definition NewTSocketConf (hostPort : string) (conf : TConfiguration)
  : option TSocket :=
  Some (mkTSocket hostPort conf).

Definition NewTBinaryProtocolFactoryConf (conf : TConfiguration)
  : TBinaryProtocolFactory :=
  mkTBinaryProtocolFactory conf.

(** ** The generated service package (github.com/jasonlabz/hive/inf)

    The package is generated from the HiveServer2 interface description and
    is consumed here as given request and response types. *)

(** Modelled from the spec: the status-code declaration of the inf package
    ([type TStatusCode int64] and its enumerated constants) is not part of
    connection.go.  The spec names the two success codes, SUCCESS and
    SUCCESS_WITH_INFO, among "a small enumerated set"; the remaining codes
    and the numbering are those of the HiveServer2 interface. *)
Definition TStatusCode := Z.

Definition TStatusCode_SUCCESS_STATUS : TStatusCode := 0.
Definition TStatusCode_SUCCESS_WITH_INFO_STATUS : TStatusCode := 1.
Definition TStatusCode_STILL_EXECUTING_STATUS : TStatusCode := 2.
Definition TStatusCode_ERROR_STATUS : TStatusCode := 3.
Definition TStatusCode_INVALID_HANDLE_STATUS : TStatusCode := 4.

(** The enumerated status-code set. *)
Definition TStatusCode_values : list TStatusCode :=
  [ TStatusCode_SUCCESS_STATUS;
    TStatusCode_SUCCESS_WITH_INFO_STATUS;
    TStatusCode_STILL_EXECUTING_STATUS;
    TStatusCode_ERROR_STATUS;
    TStatusCode_INVALID_HANDLE_STATUS ].

Record TStatus := mkTStatus {
  StatusCode : TStatusCode;
  InfoMessages : list string;
  SqlState : option string;
  ErrorCode : option Z;
  ErrorMessage : option string
}.

Record THandleIdentifier := mkTHandleIdentifier {
  GUID : list Byte.byte;
  Secret : list Byte.byte
}.

Record TSessionHandle := mkTSessionHandle { SessionId : THandleIdentifier }.

Record TOperationHandle := mkTOperationHandle {
  OperationId : THandleIdentifier;
  OperationType : Z;
  HasResultSet : bool
}.

Record TOpenSessionReq := mkTOpenSessionReq {
  ClientProtocol : Z;
  Username : option string;
  Password : option string;
  Configuration : list (string * string)
}.

Record TOpenSessionResp := mkTOpenSessionResp {
  open_Status : option TStatus;
  ServerProtocolVersion : Z;
  open_SessionHandle : option TSessionHandle;
  open_Configuration : list (string * string)
}.

Record TCloseSessionReq :=
  mkTCloseSessionReq { close_SessionHandle : option TSessionHandle }.

Record TCloseSessionResp :=
  mkTCloseSessionResp { close_Status : option TStatus }.

Record TExecuteStatementReq := mkTExecuteStatementReq {
  exec_SessionHandle : option TSessionHandle;
  Statement : string;
  ConfOverlay : list (string * string);
  RunAsync : bool
}.

Record TExecuteStatementResp := mkTExecuteStatementResp {
  exec_Status : option TStatus;
  exec_OperationHandle : option TOperationHandle
}.

(** Modelled from the spec: the request constructors of the inf package.
    Each returns a fresh request with every optional field unset; the
    open-session request (spec: [OpenSession(protocolVersion, username?,
    password?)]) starts from the protocol version the package defaults to,
    which both entry points overwrite. *)
Definition TOpenSessionReq_ClientProtocol_DEFAULT : Z := 9.

Definition NewTOpenSessionReq : TOpenSessionReq :=
  mkTOpenSessionReq TOpenSessionReq_ClientProtocol_DEFAULT None None [].

Definition NewTCloseSessionReq : TCloseSessionReq :=
  mkTCloseSessionReq None.

Definition NewTExecuteStatementReq : TExecuteStatementReq :=
  mkTExecuteStatementReq None "" [] false.

(** The service client: a transport and the protocol factory it was built
    with ([inf.NewTCLIServiceClientFactory]). *)
Record TCLIServiceClient := mkTCLIServiceClient {
  cl_transport : option TSocket;
  cl_protocol : TBinaryProtocolFactory
}.

Definition NewTCLIServiceClientFactory
  (t : option TSocket) (f : TBinaryProtocolFactory)
  : option TCLIServiceClient :=
  Some (mkTCLIServiceClient t f).

(** Modelled from the spec: [GetStatusCode] of the inf package, the
    generated accessor of the status-code field.  It reads the field
    through its receiver, so it is defined for a non-nil status only; on a
    nil receiver the read is a nil dereference. *)
Definition GetStatusCode (p : option TStatus) : outcome TStatusCode :=
  match p with
  | Some st => Ret (StatusCode st)
  | None => Panic nil_dereference
  end.

(** ** connection.go: data *)

Record Options := mkOptions {
  PollIntervalSeconds : Z;
  BatchSize : Z;
  Host : string;
  Port : Z;
  opt_Username : string;
  opt_Password : string;
  Database : string;
  MaxMessageSize : Z;
  MaxFrameSize : Z;
  ConnectTimeout : Z;
  SocketTimeout : Z;
  TLSConfig : option tls_Config;
  TBinaryStrictRead : option bool;
  TBinaryStrictWrite : option bool;
  THeaderProtocolID : option Z
}.

Definition DefaultOptions : Options :=
  {| PollIntervalSeconds := 5;
     BatchSize := 10000;
     Host := "";
     Port := 0;
     opt_Username := "";
     opt_Password := "";
     Database := "";
     MaxMessageSize := 0;
     MaxFrameSize := 0;
     ConnectTimeout := 5000;
     SocketTimeout := 5000;
     TLSConfig := None;
     TBinaryStrictRead := None;
     TBinaryStrictWrite := None;
     THeaderProtocolID := None |}.

Record Connection := mkConnection {
  thrift : option TCLIServiceClient;
  session : option TSessionHandle;
  options : Options
}.

(** Modelled from the spec: [newRowSet] and the row set it builds live in a
    file that is not part of this development.  Spec, state Created: "holds
    the Session's transport binding, the OperationHandle, and the options
    (poll interval, batch size). No RPC issued yet." *)
Record RowSet := mkRowSet {
  rs_thrift : option TCLIServiceClient;
  rs_operation : option TOperationHandle;
  rs_options : Options
}.

Definition newRowSet (cl : option TCLIServiceClient)
  (op : option TOperationHandle) (o : Options) : RowSet :=
  mkRowSet cl op o.

(** ** The remote side and the call log *)

Inductive event :=
| EvTransportOpen (t : TSocket)
| EvOpenSession (cl : TCLIServiceClient) (req : TOpenSessionReq)
| EvCloseSession (cl : TCLIServiceClient) (req : TCloseSessionReq)
| EvExecuteStatement (cl : TCLIServiceClient) (req : TExecuteStatementReq).

Definition log := list event.

(** What the other end answers.  Each RPC yields Go's pair of a response
    pointer and an error; the answer may depend on everything done so far. *)
Record Network := mkNetwork {
  net_Open : log -> TSocket -> option error;
  net_OpenSession :
    log -> TCLIServiceClient -> TOpenSessionReq ->
    option TOpenSessionResp * option error;
  net_CloseSession :
    log -> TCLIServiceClient -> TCloseSessionReq ->
    option TCloseSessionResp * option error;
  net_ExecuteStatement :
    log -> TCLIServiceClient -> TExecuteStatementReq ->
    option TExecuteStatementResp * option error
}.

(** The [String()] methods of the generated types.  They accept a nil
    receiver.  Their text is fixed by the generated package and is taken
    here as given. *)
Record Stringers := mkStringers {
  TStatus_String : option TStatus -> string;
  TCloseSessionResp_String : option TCloseSessionResp -> string;
  TExecuteStatementResp_String : option TExecuteStatementResp -> string
}.

(** ** A state-and-panic monad over the call log *)

Definition M (A : Type) : Type := log -> outcome A * log.

Definition ret {A} (a : A) : M A := fun l => (Ret a, l).

Definition bind {A B} (m : M A) (k : A -> M B) : M B :=
  fun l =>
    match m l with
    | (Ret a, l') => k a l'
    | (Panic r, l') => (Panic r, l')
    end.

Definition panic {A} (r : string) : M A := fun l => (Panic r, l).

Definition lift {A} (o : outcome A) : M A := fun l => (o, l).

(** Dereference of a pointer. *)
Definition deref {A} (p : option A) : M A :=
  match p with
  | Some a => ret a
  | None => panic nil_dereference
  end.

Declare Scope go_scope.
Delimit Scope go_scope with go.
Notation "x <- m ;; k" := (bind m (fun x => k))
  (at level 61, m at next level, right associativity) : go_scope.
Notation "' p <- m ;; k" := (bind m (fun x => match x with p => k end))
  (at level 61, p pattern, m at next level, right associativity) : go_scope.
Local Open Scope go_scope.

(** ** Field assignments *)

Definition set_ClientProtocol (s : TOpenSessionReq) (v : Z) : TOpenSessionReq :=
  mkTOpenSessionReq v (Username s) (Password s) (Configuration s).

Definition set_Username (s : TOpenSessionReq) (u : option string)
  : TOpenSessionReq :=
  mkTOpenSessionReq (ClientProtocol s) u (Password s) (Configuration s).

Definition set_Password (s : TOpenSessionReq) (p : option string)
  : TOpenSessionReq :=
  mkTOpenSessionReq (ClientProtocol s) (Username s) p (Configuration s).

Definition set_close_SessionHandle (r : TCloseSessionReq)
  (h : option TSessionHandle) : TCloseSessionReq :=
  mkTCloseSessionReq h.

Definition set_exec_SessionHandle (r : TExecuteStatementReq)
  (h : option TSessionHandle) : TExecuteStatementReq :=
  mkTExecuteStatementReq h (Statement r) (ConfOverlay r) (RunAsync r).

Definition set_Statement (r : TExecuteStatementReq) (q : string)
  : TExecuteStatementReq :=
  mkTExecuteStatementReq (exec_SessionHandle r) q (ConfOverlay r) (RunAsync r).

Definition set_session (c : Connection) (h : option TSessionHandle)
  : Connection :=
  mkConnection (thrift c) h (options c).

(** ** connection.go: operations *)

(** [isSuccessStatus]. *)
Definition isSuccessStatus (p : option TStatus) : outcome bool :=
  match GetStatusCode p with
  | Ret status =>
      Ret ((status =? TStatusCode_SUCCESS_STATUS)
           || (status =? TStatusCode_SUCCESS_WITH_INFO_STATUS))
  | Panic r => Panic r
  end.

(** [Connection.isOpen]. *)
Definition isOpen (c : Connection) : bool :=
  match session c with
  | Some _ => true
  | None => false
  end.

Section Operations.

Variable net : Network.
Variable str : Stringers.

(** [transport.Open()]. *)
Definition TSocket_Open (t : option TSocket) : M (option error) :=
  fun l =>
    match t with
    | Some s => (Ret (net_Open net l s), (l ++ [EvTransportOpen s])%list)
    | None => (Panic nil_dereference, l)
    end.

(** The three RPCs of the client.  A call through a nil client fails on
    the dereference before anything is sent. *)
Definition OpenSession (cl : option TCLIServiceClient) (req : TOpenSessionReq)
  : M (option TOpenSessionResp * option error) :=
  fun l =>
    match cl with
    | Some c =>
        (Ret (net_OpenSession net l c req),
         (l ++ [EvOpenSession c req])%list)
    | None => (Panic nil_dereference, l)
    end.

Definition CloseSession (cl : option TCLIServiceClient) (req : TCloseSessionReq)
  : M (option TCloseSessionResp * option error) :=
  fun l =>
    match cl with
    | Some c =>
        (Ret (net_CloseSession net l c req),
         (l ++ [EvCloseSession c req])%list)
    | None => (Panic nil_dereference, l)
    end.

Definition ExecuteStatement (cl : option TCLIServiceClient)
  (req : TExecuteStatementReq)
  : M (option TExecuteStatementResp * option error) :=
  fun l =>
    match cl with
    | Some c =>
        (Ret (net_ExecuteStatement net l c req),
         (l ++ [EvExecuteStatement c req])%list)
    | None => (Panic nil_dereference, l)
    end.

(** [Connect]. *)
Definition Connect (hostPort : string) (options : Options)
  : M (option Connection * option error) :=
  let tc :=
    {| tc_MaxMessageSize := MaxMessageSize options;
       tc_MaxFrameSize := MaxFrameSize options;
       tc_ConnectTimeout := ConnectTimeout options;
       tc_SocketTimeout := SocketTimeout options;
       tc_TLSConfig := TLSConfig options;
       tc_TBinaryStrictRead := TBinaryStrictRead options;
       tc_TBinaryStrictWrite := TBinaryStrictWrite options;
       tc_THeaderProtocolID := THeaderProtocolID options |} in
  let transport := NewTSocketConf hostPort tc in
  err <- TSocket_Open transport ;;
  match err with
  | Some e => ret (None, Some e)
  | None =>
      match transport with
      | None => ret (None, Some (errors_New "nil thrift transport"))
      | Some _ =>
          let protocol := NewTBinaryProtocolFactoryConf tc in
          let client := NewTCLIServiceClientFactory transport protocol in
          let s := NewTOpenSessionReq in
          let s := set_ClientProtocol s 6 in
          '(session, err) <- OpenSession client s ;;
          match err with
          | Some e => ret (None, Some e)
          | None =>
              r <- deref session ;;
              ret (Some (mkConnection client (open_SessionHandle r) options),
                   None)
          end
      end
  end.

(** [ConnectWithUser]. *)
Definition ConnectWithUser (hostPort username password : string)
  (options : Options) : M (option Connection * option error) :=
  let tc :=
    {| tc_MaxMessageSize := MaxMessageSize options;
       tc_MaxFrameSize := MaxFrameSize options;
       tc_ConnectTimeout := ConnectTimeout options;
       tc_SocketTimeout := SocketTimeout options;
       tc_TLSConfig := TLSConfig options;
       tc_TBinaryStrictRead := TBinaryStrictRead options;
       tc_TBinaryStrictWrite := TBinaryStrictWrite options;
       tc_THeaderProtocolID := THeaderProtocolID options |} in
  let transport := NewTSocketConf hostPort tc in
  err <- TSocket_Open transport ;;
  match err with
  | Some e => ret (None, Some e)
  | None =>
      match transport with
      | None => ret (None, Some (errors_New "nil thrift transport"))
      | Some _ =>
          let protocol := NewTBinaryProtocolFactoryConf tc in
          let client := NewTCLIServiceClientFactory transport protocol in
          let s := NewTOpenSessionReq in
          let s := set_ClientProtocol s 6 in
          let s := set_Username s (Some username) in
          let s := set_Password s (Some password) in
          '(session, err) <- OpenSession client s ;;
          match err with
          | Some e => ret (None, Some e)
          | None =>
              r <- deref session ;;
              ret (Some (mkConnection client (open_SessionHandle r) options),
                   None)
          end
      end
  end.

(** [Connection.Close].  The receiver is a pointer: the connection as the
    call leaves it is returned next to the error. *)
Definition Close (c : Connection) : M (Connection * option error) :=
  if isOpen c then
    let closeReq := NewTCloseSessionReq in
    let closeReq := set_close_SessionHandle closeReq (session c) in
    '(resp, err) <- CloseSession (thrift c) closeReq ;;
    match err with
    | Some e =>
        ret (c, Some (Errorf "Error closing session: "
                        [ mkArg "*inf.TCloseSessionResp"
                            (TCloseSessionResp_String str resp);
                          arg_of_error e ]))
    | None => ret (set_session c None, None)
    end
  else ret (c, None).

(** [Connection.Query]. *)
Definition Query (c : Connection) (query : string)
  : M (option RowSet * option error) :=
  let executeReq := NewTExecuteStatementReq in
  let executeReq := set_exec_SessionHandle executeReq (session c) in
  let executeReq := set_Statement executeReq query in
  '(resp, err) <- ExecuteStatement (thrift c) executeReq ;;
  match err with
  | Some e =>
      ret (None, Some (Errorf "Error in ExecuteStatement: %+v, %v"
                         [ mkArg "*inf.TExecuteStatementResp"
                             (TExecuteStatementResp_String str resp);
                           arg_of_error e ]))
  | None =>
      r <- deref resp ;;
      ok <- lift (isSuccessStatus (exec_Status r)) ;;
      if negb ok then
        ret (None, Some (Errorf "Error from server: %s"
                           [ mkArg "string"
                               (TStatus_String str (exec_Status r)) ]))
      else
        ret (Some (newRowSet (thrift c) (exec_OperationHandle r) (options c)),
             None)
  end.

(** [Connection.Exec]. *)
Definition Exec (c : Connection) (query : string)
  : M (option TExecuteStatementResp * option error) :=
  let executeReq := NewTExecuteStatementReq in
  let executeReq := set_exec_SessionHandle executeReq (session c) in
  let executeReq := set_Statement executeReq query in
  '(resp, err) <- ExecuteStatement (thrift c) executeReq ;;
  match err with
  | Some e =>
      ret (None, Some (Errorf "Error in ExecuteStatement: %+v, %v"
                         [ mkArg "*inf.TExecuteStatementResp"
                             (TExecuteStatementResp_String str resp);
                           arg_of_error e ]))
  | None =>
      r <- deref resp ;;
      ok <- lift (isSuccessStatus (exec_Status r)) ;;
      if negb ok then
        ret (None, Some (Errorf "Error from server: %s"
                           [ mkArg "string"
                               (TStatus_String str (exec_Status r)) ]))
      else ret (resp, err)
  end.

End Operations.

(** ** Vocabulary of the statements *)

(** The transport configuration both entry points build from the options. *)
Definition transportConfiguration (o : Options) : TConfiguration :=
  mkTConfiguration (MaxMessageSize o) (MaxFrameSize o) (ConnectTimeout o)
    (SocketTimeout o) (TLSConfig o) (TBinaryStrictRead o)
    (TBinaryStrictWrite o) (THeaderProtocolID o).

Definition socket_of (hostPort : string) (o : Options) : TSocket :=
  mkTSocket hostPort (transportConfiguration o).

Definition client_of (hostPort : string) (o : Options) : TCLIServiceClient :=
  mkTCLIServiceClient (Some (socket_of hostPort o))
    (mkTBinaryProtocolFactory (transportConfiguration o)).

(** The open-session request of the spec: the fixed protocol version and an
    optional username/password pair. *)
Definition openSessionRequest (cred : option (string * string))
  : TOpenSessionReq :=
  match cred with
  | None => mkTOpenSessionReq 6 None None []
  | Some (u, p) => mkTOpenSessionReq 6 (Some u) (Some p) []
  end.

(** The connect procedure as the spec words it (4.1): open a transport
    binding to the endpoint using the transport parameters in the options,
    perform a session-open RPC, optionally carrying a username/password
    pair, and return a Session wrapping the resulting handle. *)
Definition connectProcedure (net : Network) (hostPort : string)
  (cred : option (string * string)) (o : Options)
  : M (option Connection * option error) :=
  let sock := socket_of hostPort o in
  let cl := client_of hostPort o in
  err <- TSocket_Open net (Some sock) ;;
  match err with
  | Some e => ret (None, Some e)
  | None =>
      '(resp, err) <- OpenSession net (Some cl) (openSessionRequest cred) ;;
      match err with
      | Some e => ret (None, Some e)
      | None =>
          r <- deref resp ;;
          ret (Some (mkConnection (Some cl) (open_SessionHandle r) o), None)
      end
  end.

(** The requests [Close], [Query] and [Exec] send for a connection. *)
Definition closeRequest (c : Connection) : TCloseSessionReq :=
  mkTCloseSessionReq (session c).

Definition executeRequest (c : Connection) (query : string)
  : TExecuteStatementReq :=
  mkTExecuteStatementReq (session c) query [] false.

(** The three errors the statement path and the close path build. *)
Definition applicationError (str : Stringers) (st : TStatus) : error :=
  mkError "*errors.errorString"
    ("Error from server: " ++ TStatus_String str (Some st)).

Definition executeRpcError (str : Stringers)
  (resp : option TExecuteStatementResp) (e : error) : error :=
  mkError "*errors.errorString"
    ("Error in ExecuteStatement: " ++ TExecuteStatementResp_String str resp
       ++ ", " ++ err_msg e).

Definition closeRpcError (str : Stringers)
  (resp : option TCloseSessionResp) (e : error) : error :=
  mkError "*errors.errorString"
    ("Error closing session: %!(EXTRA *inf.TCloseSessionResp="
       ++ TCloseSessionResp_String str resp
       ++ ", " ++ err_type e ++ "=" ++ err_msg e ++ ")").

(** A status code is one of the two success codes. *)
Definition successCode (code : TStatusCode) : Prop :=
  code = TStatusCode_SUCCESS_STATUS
  \/ code = TStatusCode_SUCCESS_WITH_INFO_STATUS.

(** ** Concrete data for the examples *)

Definition demo_str : Stringers :=
  {| TStatus_String := fun p =>
       match p with
       | None => "<nil>"
       | Some st =>
           match ErrorMessage st with
           | Some m => "TStatus(" ++ m ++ ")"
           | None => "TStatus()"
           end
       end;
     TCloseSessionResp_String := fun p =>
       match p with
       | None => "<nil>"
       | Some _ => "TCloseSessionResp()"
       end;
     TExecuteStatementResp_String := fun p =>
       match p with
       | None => "<nil>"
       | Some _ => "TExecuteStatementResp()"
       end |}.

(** A network that answers every call with the same replies. *)
Definition fixedNetwork
  (opened : option error)
  (o : option TOpenSessionResp * option error)
  (c : option TCloseSessionResp * option error)
  (e : option TExecuteStatementResp * option error) : Network :=
  {| net_Open := fun _ _ => opened;
     net_OpenSession := fun _ _ _ => o;
     net_CloseSession := fun _ _ _ => c;
     net_ExecuteStatement := fun _ _ _ => e |}.

Definition status_ok : TStatus :=
  mkTStatus TStatusCode_SUCCESS_STATUS [] None None None.

Definition status_error : TStatus :=
  mkTStatus TStatusCode_ERROR_STATUS [] (Some "42000") (Some 10001)
    (Some "Table not found").

Definition demo_session : TSessionHandle :=
  mkTSessionHandle (mkTHandleIdentifier [Byte.x01] [Byte.x02]).

Definition demo_operation : TOperationHandle :=
  mkTOperationHandle (mkTHandleIdentifier [Byte.x03] [Byte.x04]) 0 true.

Definition demo_client : TCLIServiceClient :=
  client_of "localhost:10000" DefaultOptions.

Definition timeout_error : error :=
  mkError "thrift.tTransportException" "i/o timeout".

Definition open_ok : option TOpenSessionResp * option error :=
  (Some (mkTOpenSessionResp (Some status_ok) 6 (Some demo_session) []), None).

Definition close_ok : option TCloseSessionResp * option error :=
  (Some (mkTCloseSessionResp (Some status_ok)), None).

Definition execute_ok : option TExecuteStatementResp * option error :=
  (Some (mkTExecuteStatementResp (Some status_ok) (Some demo_operation)), None).

(** Every call succeeds. *)
Definition net_ok : Network := fixedNetwork None open_ok close_ok execute_ok.

(** The close-session RPC fails on the wire. *)
Definition net_close_fails : Network :=
  fixedNetwork None open_ok (None, Some timeout_error) execute_ok.

(** Every RPC gets through, and every reply reports ERROR_STATUS. *)
Definition net_status_error : Network :=
  fixedNetwork None
    (Some (mkTOpenSessionResp (Some status_error) 6 (Some demo_session) []),
     None)
    (Some (mkTCloseSessionResp (Some status_error)), None)
    (Some (mkTExecuteStatementResp (Some status_error) None), None).

(** The open-session reply has no session handle. *)
Definition net_no_handle : Network :=
  fixedNetwork None
    (Some (mkTOpenSessionResp (Some status_error) 6 None []), None)
    close_ok execute_ok.

(** The execute-statement reply has no status. *)
Definition net_nil_status : Network :=
  fixedNetwork None open_ok close_ok
    (Some (mkTExecuteStatementResp None (Some demo_operation)), None).

Definition open_conn : Connection :=
  mkConnection (Some demo_client) (Some demo_session) DefaultOptions.

Definition closed_conn : Connection :=
  mkConnection (Some demo_client) None DefaultOptions.

(** ** Further vocabulary and data *)

(** A Go result pair holds a value or an error, never both and never
    neither.  A panic returns no pair at all. *)
Definition value_xor_error {A : Type} (r : outcome (option A * option error))
  : Prop :=
  match r with
  | Ret (Some _, None) => True
  | Ret (None, Some _) => True
  | Ret (Some _, Some _) => False
  | Ret (None, None) => False
  | Panic _ => True
  end.

(** The same result with the options of the returned connection replaced. *)
Definition with_options (o : Options)
  (r : outcome (option Connection * option error))
  : outcome (option Connection * option error) :=
  match r with
  | Ret (Some c, e) => Ret (Some (mkConnection (thrift c) (session c) o), e)
  | Ret (None, e) => Ret (None, e)
  | Panic reason => Panic reason
  end.

(** The events an operation adds to the log. *)
Definition statement_traffic (c : Connection) (q : string) : list event :=
  match thrift c with
  | Some cl => [EvExecuteStatement cl (executeRequest c q)]
  | None => []
  end.

Definition close_traffic (c : Connection) : list event :=
  match session c, thrift c with
  | Some _, Some cl => [EvCloseSession cl (closeRequest c)]
  | _, _ => []
  end.

Definition refused_error : error :=
  mkError "*net.OpError" "connection refused".

(** The socket cannot be opened. *)
Definition net_open_fails : Network :=
  fixedNetwork (Some refused_error) open_ok close_ok execute_ok.

(** The open-session RPC fails on the wire. *)
Definition net_handshake_fails : Network :=
  fixedNetwork None (None, Some timeout_error) close_ok execute_ok.

(** The execute-statement RPC fails on the wire. *)
Definition net_execute_fails : Network :=
  fixedNetwork None open_ok close_ok (None, Some timeout_error).

(** The RPCs come back with neither a response nor an error. *)
Definition net_nil_reply : Network :=
  fixedNetwork None (None, None) close_ok (None, None).

(** A server that issues a session handle to a request with a username
    only; the anonymous request gets a reply without one. *)
Definition net_handle_for_users : Network :=
  {| net_Open := fun _ _ => None;
     net_OpenSession := fun _ _ req =>
       match Username req with
       | Some _ => open_ok
       | None =>
           (Some (mkTOpenSessionResp (Some status_error) 6 None []), None)
       end;
     net_CloseSession := fun _ _ _ => close_ok;
     net_ExecuteStatement := fun _ _ _ => execute_ok |}.

(** Options that differ from the defaults outside the transport fields. *)
Definition named_options : Options :=
  {| PollIntervalSeconds := 1;
     BatchSize := 50;
     Host := "warehouse";
     Port := 10000;
     opt_Username := "hive";
     opt_Password := "secret";
     Database := "default";
     MaxMessageSize := 0;
     MaxFrameSize := 0;
     ConnectTimeout := 5000;
     SocketTimeout := 5000;
     TLSConfig := None;
     TBinaryStrictRead := None;
     TBinaryStrictWrite := None;
     THeaderProtocolID := None |}.

(** * Properties *)

(** ** Strings and formatting *)

(** The examples of the fmt documentation. *)
Example Sprintf_extra_operand :
  Sprintf "hi" [mkArg "string" "guys"] = "hi%!(EXTRA string=guys)".
Proof. reflexivity. Qed.

Example Sprintf_missing_operand : Sprintf "hi%d" [] = "hi%!d(MISSING)".
Proof. reflexivity. Qed.

Example Sprintf_wrong_verb :
  Sprintf "%d" [mkArg "string" "hi"] = "%!d(string=hi)".
Proof. reflexivity. Qed.

Example Sprintf_two_verbs :
  Sprintf "Error in ExecuteStatement: %+v, %v"
    [mkArg "*inf.TExecuteStatementResp" "<nil>"; arg_of_error timeout_error]
  = "Error in ExecuteStatement: <nil>, i/o timeout".
Proof. reflexivity. Qed.

Lemma append_empty_r (s : string) : s ++ "" = s.
Proof. induction s as [|c s IH]; simpl; [reflexivity | now rewrite IH]. Qed.

Lemma append_assoc (a b c : string) : (a ++ b) ++ c = a ++ (b ++ c).
Proof. induction a as [|x a IH]; simpl; [reflexivity | now rewrite IH]. Qed.

Lemma includes_intro (pre sub post : string) :
  includes (pre ++ sub ++ post) sub.
Proof. now exists pre, post. Qed.

Lemma extra_two (a b : fmt_arg) :
  extra [a; b]
  = "%!(EXTRA " ++ arg_type a ++ "=" ++ arg_text a ++ ", "
      ++ arg_type b ++ "=" ++ arg_text b ++ ")".
Proof.
  unfold extra. cbn [join_extra]. now rewrite !append_assoc.
Qed.

Lemma Errorf_server (t : string) :
  Errorf "Error from server: %s" [mkArg "string" t]
  = mkError "*errors.errorString" ("Error from server: " ++ t).
Proof. unfold Errorf; simpl. now rewrite append_empty_r. Qed.

Lemma Errorf_execute (ty t : string) (e : error) :
  Errorf "Error in ExecuteStatement: %+v, %v" [mkArg ty t; arg_of_error e]
  = mkError "*errors.errorString"
      ("Error in ExecuteStatement: " ++ t ++ ", " ++ err_msg e).
Proof. unfold Errorf; simpl. now rewrite append_empty_r. Qed.

Lemma Errorf_close (t : string) (e : error) :
  Errorf "Error closing session: "
    [mkArg "*inf.TCloseSessionResp" t; arg_of_error e]
  = mkError "*errors.errorString"
      ("Error closing session: %!(EXTRA *inf.TCloseSessionResp="
         ++ t ++ ", " ++ err_type e ++ "=" ++ err_msg e ++ ")").
Proof.
  unfold Errorf. f_equal.
  change (Sprintf "Error closing session: "
            [mkArg "*inf.TCloseSessionResp" t; arg_of_error e])
    with ("Error closing session: "
            ++ extra [mkArg "*inf.TCloseSessionResp" t; arg_of_error e]).
  now rewrite extra_two.
Qed.

(** ** Status classification *)

Lemma isSuccessStatus_some (st : TStatus) :
  isSuccessStatus (Some st)
  = Ret ((StatusCode st =? TStatusCode_SUCCESS_STATUS)
         || (StatusCode st =? TStatusCode_SUCCESS_WITH_INFO_STATUS)).
Proof. reflexivity. Qed.

Lemma isSuccessStatus_true (st : TStatus) :
  isSuccessStatus (Some st) = Ret true <-> successCode (StatusCode st).
Proof.
  rewrite isSuccessStatus_some. unfold successCode. split.
  - intros H. injection H as H. apply orb_true_iff in H.
    destruct H as [H | H]; apply Z.eqb_eq in H; auto.
  - intros [H | H]; rewrite H; reflexivity.
Qed.

Lemma isSuccessStatus_false (st : TStatus) :
  isSuccessStatus (Some st) = Ret false <-> ~ successCode (StatusCode st).
Proof.
  rewrite isSuccessStatus_some. unfold successCode. split.
  - intros H. injection H as H. apply orb_false_iff in H.
    destruct H as [H1 H2]. apply Z.eqb_neq in H1, H2. tauto.
  - intros H. f_equal. apply orb_false_iff.
    split; apply Z.eqb_neq; intros E; apply H; auto.
Qed.

(** ** Running the statement path *)

Lemma executeRequest_eq (c : Connection) (q : string) :
  set_Statement (set_exec_SessionHandle NewTExecuteStatementReq (session c)) q
  = executeRequest c q.
Proof. reflexivity. Qed.

(** Unfold a statement call down to the reply of the RPC. *)
Ltac run_statement Hcl :=
  unfold Query, Exec, bind, ExecuteStatement; cbv zeta;
  rewrite executeRequest_eq, Hcl.

Section Runs.

Variable net : Network.
Variable str : Stringers.

Lemma Query_log (c : Connection) (cl : TCLIServiceClient) (q : string)
  (l : log) :
  thrift c = Some cl ->
  snd (Query net str c q l)
  = (l ++ [EvExecuteStatement cl (executeRequest c q)])%list.
Proof.
  intros Hcl. run_statement Hcl.
  destruct (net_ExecuteStatement net l cl _) as [[r|] [e|]]; simpl;
    try reflexivity.
  destruct (isSuccessStatus (exec_Status r)) as [[|]|]; reflexivity.
Qed.

Lemma Exec_log (c : Connection) (cl : TCLIServiceClient) (q : string)
  (l : log) :
  thrift c = Some cl ->
  snd (Exec net str c q l)
  = (l ++ [EvExecuteStatement cl (executeRequest c q)])%list.
Proof.
  intros Hcl. run_statement Hcl.
  destruct (net_ExecuteStatement net l cl _) as [[r|] [e|]]; simpl;
    try reflexivity.
  destruct (isSuccessStatus (exec_Status r)) as [[|]|]; reflexivity.
Qed.

Lemma Query_rpc_error c cl q l resp e :
  thrift c = Some cl ->
  net_ExecuteStatement net l cl (executeRequest c q) = (resp, Some e) ->
  fst (Query net str c q l) = Ret (None, Some (executeRpcError str resp e)).
Proof.
  intros Hcl Hr. run_statement Hcl. rewrite Hr.
  unfold ret; simpl. now rewrite Errorf_execute.
Qed.

Lemma Exec_rpc_error c cl q l resp e :
  thrift c = Some cl ->
  net_ExecuteStatement net l cl (executeRequest c q) = (resp, Some e) ->
  fst (Exec net str c q l) = Ret (None, Some (executeRpcError str resp e)).
Proof.
  intros Hcl Hr. run_statement Hcl. rewrite Hr.
  unfold ret; simpl. now rewrite Errorf_execute.
Qed.

Lemma Query_status c cl q l r st :
  thrift c = Some cl ->
  net_ExecuteStatement net l cl (executeRequest c q) = (Some r, None) ->
  exec_Status r = Some st ->
  fst (Query net str c q l)
  = if (StatusCode st =? TStatusCode_SUCCESS_STATUS)
       || (StatusCode st =? TStatusCode_SUCCESS_WITH_INFO_STATUS)
    then Ret (Some (newRowSet (Some cl) (exec_OperationHandle r) (options c)),
              None)
    else Ret (None, Some (applicationError str st)).
Proof.
  intros Hcl Hr Hst. run_statement Hcl. rewrite Hr.
  unfold deref, lift, ret. rewrite Hst, isSuccessStatus_some, Errorf_server.
  destruct (_ || _); reflexivity.
Qed.

Lemma Exec_status c cl q l r st :
  thrift c = Some cl ->
  net_ExecuteStatement net l cl (executeRequest c q) = (Some r, None) ->
  exec_Status r = Some st ->
  fst (Exec net str c q l)
  = if (StatusCode st =? TStatusCode_SUCCESS_STATUS)
       || (StatusCode st =? TStatusCode_SUCCESS_WITH_INFO_STATUS)
    then Ret (Some r, None)
    else Ret (None, Some (applicationError str st)).
Proof.
  intros Hcl Hr Hst. run_statement Hcl. rewrite Hr.
  unfold deref, lift, ret. rewrite Hst, isSuccessStatus_some, Errorf_server.
  destruct (_ || _); reflexivity.
Qed.

Lemma status_test_false (st : TStatus) :
  ~ successCode (StatusCode st) ->
  (StatusCode st =? TStatusCode_SUCCESS_STATUS)
  || (StatusCode st =? TStatusCode_SUCCESS_WITH_INFO_STATUS) = false.
Proof.
  intros H. apply isSuccessStatus_false in H.
  rewrite isSuccessStatus_some in H. now injection H.
Qed.

Lemma status_test_true (st : TStatus) :
  successCode (StatusCode st) ->
  (StatusCode st =? TStatusCode_SUCCESS_STATUS)
  || (StatusCode st =? TStatusCode_SUCCESS_WITH_INFO_STATUS) = true.
Proof.
  intros H. apply isSuccessStatus_true in H.
  rewrite isSuccessStatus_some in H. now injection H.
Qed.

End Runs.

(** ** Running Close and the two connect entry points *)

Section SessionRuns.

Variable net : Network.
Variable str : Stringers.

Lemma Close_closed (c : Connection) (l : log) :
  isOpen c = false -> Close net str c l = (Ret (c, None), l).
Proof. intros H. unfold Close. now rewrite H. Qed.

Lemma isOpen_session (c : Connection) (h : TSessionHandle) :
  session c = Some h -> isOpen c = true.
Proof. intros H. unfold isOpen. now rewrite H. Qed.

Lemma Close_log c h cl l :
  session c = Some h -> thrift c = Some cl ->
  snd (Close net str c l) = (l ++ [EvCloseSession cl (closeRequest c)])%list.
Proof.
  intros Hs Hcl. unfold Close, bind, CloseSession.
  rewrite (isOpen_session c h Hs), Hcl. cbv zeta.
  change (set_close_SessionHandle NewTCloseSessionReq (session c))
    with (closeRequest c).
  destruct (net_CloseSession net l cl _) as [resp [e|]]; reflexivity.
Qed.

Lemma Close_rpc_error c h cl l resp e :
  session c = Some h -> thrift c = Some cl ->
  net_CloseSession net l cl (closeRequest c) = (resp, Some e) ->
  Close net str c l
  = (Ret (c, Some (closeRpcError str resp e)),
     (l ++ [EvCloseSession cl (closeRequest c)])%list).
Proof.
  intros Hs Hcl Hr. unfold Close, bind, CloseSession.
  rewrite (isOpen_session c h Hs), Hcl. cbv zeta.
  change (set_close_SessionHandle NewTCloseSessionReq (session c))
    with (closeRequest c).
  rewrite Hr. unfold ret. now rewrite Errorf_close.
Qed.

Lemma Close_rpc_ok c h cl l resp :
  session c = Some h -> thrift c = Some cl ->
  net_CloseSession net l cl (closeRequest c) = (resp, None) ->
  Close net str c l
  = (Ret (set_session c None, None),
     (l ++ [EvCloseSession cl (closeRequest c)])%list).
Proof.
  intros Hs Hcl Hr. unfold Close, bind, CloseSession.
  rewrite (isOpen_session c h Hs), Hcl. cbv zeta.
  change (set_close_SessionHandle NewTCloseSessionReq (session c))
    with (closeRequest c).
  now rewrite Hr.
Qed.

Lemma Connect_procedure hostPort o l :
  Connect net hostPort o l = connectProcedure net hostPort None o l.
Proof. reflexivity. Qed.

Lemma ConnectWithUser_procedure hostPort u p o l :
  ConnectWithUser net hostPort u p o l
  = connectProcedure net hostPort (Some (u, p)) o l.
Proof. reflexivity. Qed.

(** Both RPC layers succeed: the connection wraps whatever handle the
    reply holds. *)
Lemma connectProcedure_reply hostPort cred o l r :
  net_Open net l (socket_of hostPort o) = None ->
  net_OpenSession net (l ++ [EvTransportOpen (socket_of hostPort o)])%list
    (client_of hostPort o) (openSessionRequest cred) = (Some r, None) ->
  connectProcedure net hostPort cred o l
  = (Ret (Some (mkConnection (Some (client_of hostPort o))
                  (open_SessionHandle r) o), None),
     (l ++ [EvTransportOpen (socket_of hostPort o)]
        ++ [EvOpenSession (client_of hostPort o) (openSessionRequest cred)])
     %list).
Proof.
  intros Ho Hr. unfold connectProcedure, bind, TSocket_Open, OpenSession.
  rewrite Ho, Hr. simpl. now rewrite <- app_assoc.
Qed.

End SessionRuns.

(** * The claims *)

(** C4.  Over the enumerated status-code set, [isSuccessStatus] answers true
    exactly for SUCCESS and SUCCESS_WITH_INFO and false for every other
    code.  The first two parts hold for any code a status can carry; the
    third evaluates the predicate on the whole enumerated set. *)
Theorem isSuccessStatus_classification :
  (forall st : TStatus,
      isSuccessStatus (Some st) = Ret true <-> successCode (StatusCode st))
  /\ (forall st : TStatus,
         isSuccessStatus (Some st) = Ret false
         <-> ~ successCode (StatusCode st))
  /\ map (fun code => isSuccessStatus (Some (mkTStatus code [] None None None)))
         TStatusCode_values
     = [Ret true; Ret true; Ret false; Ret false; Ret false].
Proof.
  split; [exact isSuccessStatus_true |].
  split; [exact isSuccessStatus_false | reflexivity].
Qed.

(** C7.  Close on an already closed connection returns the nil error, sends
    nothing (the call log is unchanged) and leaves the connection as it
    was. *)
Theorem Close_idempotent (net : Network) (str : Stringers)
  (c : Connection) (l : log) :
  isOpen c = false ->
  Close net str c l = (Ret (c, None), l).
Proof. apply Close_closed. Qed.

Lemma Close_idempotent_witness :
  isOpen closed_conn = false
  /\ Close net_ok demo_str closed_conn [] = (Ret (closed_conn, None), []).
Proof.
  split; [reflexivity |].
  apply (Close_idempotent net_ok demo_str closed_conn []). reflexivity.
Defined.

(** C3.  When the execute-statement RPC gets through and its response
    carries a status code that is neither success code, Query and Exec both
    return the error "Error from server: " followed by the text of the
    server's status, and return no row set and no response. *)
Theorem statement_application_error (net : Network) (str : Stringers)
  (c : Connection) (cl : TCLIServiceClient) (q : string) (l : log)
  (r : TExecuteStatementResp) (st : TStatus) :
  thrift c = Some cl ->
  net_ExecuteStatement net l cl (executeRequest c q) = (Some r, None) ->
  exec_Status r = Some st ->
  ~ successCode (StatusCode st) ->
  fst (Query net str c q l) = Ret (None, Some (applicationError str st))
  /\ fst (Exec net str c q l) = Ret (None, Some (applicationError str st))
  /\ includes (err_msg (applicationError str st))
       (TStatus_String str (Some st)).
Proof.
  intros Hcl Hr Hst Hcode. repeat split.
  - rewrite (Query_status net str c cl q l r st Hcl Hr Hst).
    now rewrite status_test_false.
  - rewrite (Exec_status net str c cl q l r st Hcl Hr Hst).
    now rewrite status_test_false.
  - exists "Error from server: ", "". unfold applicationError; simpl.
    now rewrite append_empty_r.
Qed.

Lemma statement_application_error_witness :
  fst (Query net_status_error demo_str open_conn "SELECT 1" [])
  = Ret (None, Some (mkError "*errors.errorString"
                       "Error from server: TStatus(Table not found)"))
  /\ fst (Exec net_status_error demo_str open_conn "SELECT 1" [])
     = Ret (None, Some (mkError "*errors.errorString"
                          "Error from server: TStatus(Table not found)")).
Proof.
  assert (H : ~ successCode (StatusCode status_error)).
  { intros [H | H]; discriminate H. }
  destruct (statement_application_error net_status_error demo_str open_conn
              demo_client "SELECT 1" [] _ status_error
              eq_refl eq_refl eq_refl H) as (HQ & HE & _).
  split; [exact HQ | exact HE].
Defined.

(** C10.  [isSuccessStatus] is defined on a non-nil status only.  Query and
    Exec hand it the Status field of a response that came through without
    any nil test, so a response without a status ends both in a nil
    dereference, not in a returned error. *)
Theorem nil_status_panics (net : Network) (str : Stringers)
  (c : Connection) (cl : TCLIServiceClient) (q : string) (l : log)
  (r : TExecuteStatementResp) :
  thrift c = Some cl ->
  net_ExecuteStatement net l cl (executeRequest c q) = (Some r, None) ->
  exec_Status r = None ->
  isSuccessStatus None = Panic nil_dereference
  /\ (forall st, exists b, isSuccessStatus (Some st) = Ret b)
  /\ fst (Query net str c q l) = Panic nil_dereference
  /\ fst (Exec net str c q l) = Panic nil_dereference.
Proof.
  intros Hcl Hr Hst. split; [reflexivity |].
  split; [intros st; eexists; apply isSuccessStatus_some |].
  split; run_statement Hcl; rewrite Hr; unfold deref, lift, ret;
    now rewrite Hst.
Qed.

Lemma nil_status_panics_witness :
  fst (Query net_nil_status demo_str open_conn "SELECT 1" [])
  = Panic nil_dereference
  /\ fst (Exec net_nil_status demo_str open_conn "SELECT 1" [])
     = Panic nil_dereference.
Proof.
  destruct (nil_status_panics net_nil_status demo_str open_conn demo_client
              "SELECT 1" [] _ eq_refl eq_refl eq_refl) as (_ & _ & HQ & HE).
  split; [exact HQ | exact HE].
Defined.

(** C1, as stated, fails.  On a closed connection whose server accepts the
    statement, Query returns a row set with the nil error, Exec returns the
    response with the nil error, and each has sent one execute-statement
    RPC. *)
Lemma closed_connection_statement_goes_out :
  isOpen closed_conn = false
  /\ Query net_ok demo_str closed_conn "SELECT 1" []
     = (Ret (Some (mkRowSet (Some demo_client) (Some demo_operation)
                     DefaultOptions), None),
        [EvExecuteStatement demo_client
           (mkTExecuteStatementReq None "SELECT 1" [] false)])
  /\ Exec net_ok demo_str closed_conn "SELECT 1" []
     = (Ret (Some (mkTExecuteStatementResp (Some status_ok)
                     (Some demo_operation)), None),
        [EvExecuteStatement demo_client
           (mkTExecuteStatementReq None "SELECT 1" [] false)]).
Proof. repeat split. Qed.

(** C1, amended.  Query and Exec make no test of the session: on a closed
    connection each sends exactly one execute-statement RPC, whose session
    handle is nil, and what it returns is decided by the reply alone.  A
    failed RPC and a non-success status give an error; a success status
    gives the row set, respectively the response. *)
Theorem closed_connection_statement (net : Network) (str : Stringers)
  (c : Connection) (cl : TCLIServiceClient) (q : string) (l : log) :
  isOpen c = false ->
  thrift c = Some cl ->
  let req := mkTExecuteStatementReq None q [] false in
  let reply := net_ExecuteStatement net l cl req in
  snd (Query net str c q l) = (l ++ [EvExecuteStatement cl req])%list
  /\ snd (Exec net str c q l) = (l ++ [EvExecuteStatement cl req])%list
  /\ (forall resp e, reply = (resp, Some e) ->
        fst (Query net str c q l)
        = Ret (None, Some (executeRpcError str resp e))
        /\ fst (Exec net str c q l)
           = Ret (None, Some (executeRpcError str resp e)))
  /\ (forall r st, reply = (Some r, None) -> exec_Status r = Some st ->
        ~ successCode (StatusCode st) ->
        fst (Query net str c q l) = Ret (None, Some (applicationError str st))
        /\ fst (Exec net str c q l)
           = Ret (None, Some (applicationError str st)))
  /\ (forall r st, reply = (Some r, None) -> exec_Status r = Some st ->
        successCode (StatusCode st) ->
        fst (Query net str c q l)
        = Ret (Some (newRowSet (Some cl) (exec_OperationHandle r) (options c)),
               None)
        /\ fst (Exec net str c q l) = Ret (Some r, None)).
Proof.
  intros Hclosed Hcl req reply.
  assert (Hreq : executeRequest c q = req).
  { unfold executeRequest, req. unfold isOpen in Hclosed.
    destruct (session c); [discriminate | reflexivity]. }
  subst reply. rewrite <- Hreq.
  split; [now apply Query_log |]. split; [now apply Exec_log |].
  split; [| split].
  - intros resp e Hr. split.
    + now apply Query_rpc_error with cl.
    + now apply Exec_rpc_error with cl.
  - intros r st Hr Hst Hcode. split.
    + rewrite (Query_status net str c cl q l r st Hcl Hr Hst).
      now rewrite status_test_false.
    + rewrite (Exec_status net str c cl q l r st Hcl Hr Hst).
      now rewrite status_test_false.
  - intros r st Hr Hst Hcode. split.
    + rewrite (Query_status net str c cl q l r st Hcl Hr Hst).
      now rewrite status_test_true.
    + rewrite (Exec_status net str c cl q l r st Hcl Hr Hst).
      now rewrite status_test_true.
Qed.

Lemma closed_connection_statement_witness :
  isOpen closed_conn = false
  /\ thrift closed_conn = Some demo_client
  /\ snd (Query net_status_error demo_str closed_conn "SELECT 1" [])
     = [EvExecuteStatement demo_client
          (mkTExecuteStatementReq None "SELECT 1" [] false)]
  /\ snd (Exec net_status_error demo_str closed_conn "SELECT 1" [])
     = [EvExecuteStatement demo_client
          (mkTExecuteStatementReq None "SELECT 1" [] false)].
Proof.
  split; [reflexivity |]. split; [reflexivity |].
  destruct (closed_connection_statement net_status_error demo_str closed_conn
              demo_client "SELECT 1" [] eq_refl eq_refl) as (HQ & HE & _).
  split; [exact HQ | exact HE].
Defined.

(** C2, as stated, fails.  When the close-session RPC times out on an open
    connection, Close returns the error and the connection it leaves behind
    still holds its session handle: it is open, not closed. *)
Lemma failed_close_leaves_connection_open :
  isOpen open_conn = true
  /\ Close net_close_fails demo_str open_conn []
     = (Ret (open_conn,
             Some (mkError "*errors.errorString"
                     ("Error closing session: %!(EXTRA "
                        ++ "*inf.TCloseSessionResp=<nil>, "
                        ++ "thrift.tTransportException=i/o timeout)"))),
        [EvCloseSession demo_client (mkTCloseSessionReq (Some demo_session))])
  /\ session open_conn = Some demo_session.
Proof. repeat split. Qed.

(** C2, amended.  When the close-session RPC fails at the transport/RPC
    level on an open connection, Close returns an error and leaves the
    session handle in place: the connection is still open locally, and a
    later Close sends the close-session RPC again. *)
Theorem Close_rpc_failure_keeps_session (net : Network) (str : Stringers)
  (c : Connection) (h : TSessionHandle) (cl : TCLIServiceClient) (l : log)
  (resp : option TCloseSessionResp) (e : error) :
  session c = Some h ->
  thrift c = Some cl ->
  net_CloseSession net l cl (closeRequest c) = (resp, Some e) ->
  Close net str c l
  = (Ret (c, Some (closeRpcError str resp e)),
     (l ++ [EvCloseSession cl (closeRequest c)])%list)
  /\ isOpen c = true
  /\ (forall l' : log,
         snd (Close net str c l')
         = (l' ++ [EvCloseSession cl (closeRequest c)])%list).
Proof.
  intros Hs Hcl Hr. split; [now apply Close_rpc_error with h |].
  split; [now apply isOpen_session with h |].
  intros l'. now apply Close_log with h.
Qed.

Lemma Close_rpc_failure_keeps_session_witness :
  session open_conn = Some demo_session
  /\ thrift open_conn = Some demo_client
  /\ isOpen open_conn = true
  /\ snd (Close net_close_fails demo_str open_conn
            [EvCloseSession demo_client (closeRequest open_conn)])
     = [EvCloseSession demo_client (closeRequest open_conn);
        EvCloseSession demo_client (closeRequest open_conn)].
Proof.
  split; [reflexivity |]. split; [reflexivity |].
  destruct (Close_rpc_failure_keeps_session net_close_fails demo_str open_conn
              demo_session demo_client [] None timeout_error
              eq_refl eq_refl eq_refl) as (_ & Hopen & Hagain).
  split; [exact Hopen | exact (Hagain _)].
Defined.

(** C5, as stated, fails.  The open-session RPC gets through and the reply
    holds no session handle: Connect and ConnectWithUser return the nil
    error together with a connection whose session is nil. *)
Lemma connect_without_handle_returns_connection :
  fst (Connect net_no_handle "localhost:10000" DefaultOptions [])
  = Ret (Some closed_conn, None)
  /\ fst (ConnectWithUser net_no_handle "localhost:10000" "hive" "secret"
            DefaultOptions [])
     = Ret (Some closed_conn, None)
  /\ isOpen closed_conn = false.
Proof. repeat split. Qed.

(** C5, amended.  When the open-session RPC succeeds at the transport/RPC
    layer and the reply holds no session handle, Connect and ConnectWithUser
    return no error: they return a connection whose session handle is nil,
    one that [isOpen] reports as not open. *)
Theorem connect_without_handle (net : Network) :
  (forall (hostPort : string) (o : Options) (l : log) (r : TOpenSessionResp),
      net_Open net l (socket_of hostPort o) = None ->
      net_OpenSession net
        (l ++ [EvTransportOpen (socket_of hostPort o)])%list
        (client_of hostPort o) (openSessionRequest None) = (Some r, None) ->
      open_SessionHandle r = None ->
      fst (Connect net hostPort o l)
      = Ret (Some (mkConnection (Some (client_of hostPort o)) None o), None)
      /\ isOpen (mkConnection (Some (client_of hostPort o)) None o) = false)
  /\ (forall (hostPort u p : string) (o : Options) (l : log)
        (r : TOpenSessionResp),
         net_Open net l (socket_of hostPort o) = None ->
         net_OpenSession net
           (l ++ [EvTransportOpen (socket_of hostPort o)])%list
           (client_of hostPort o) (openSessionRequest (Some (u, p)))
         = (Some r, None) ->
         open_SessionHandle r = None ->
         fst (ConnectWithUser net hostPort u p o l)
         = Ret (Some (mkConnection (Some (client_of hostPort o)) None o), None)
         /\ isOpen (mkConnection (Some (client_of hostPort o)) None o)
            = false).
Proof.
  split.
  - intros hostPort o l r Ho Hr Hh. rewrite Connect_procedure.
    rewrite (connectProcedure_reply net hostPort None o l r Ho Hr), Hh.
    split; reflexivity.
  - intros hostPort u p o l r Ho Hr Hh. rewrite ConnectWithUser_procedure.
    rewrite (connectProcedure_reply net hostPort (Some (u, p)) o l r Ho Hr).
    rewrite Hh. split; reflexivity.
Qed.

Lemma connect_without_handle_witness :
  fst (ConnectWithUser net_handle_for_users "localhost:10000" "hive" "secret"
         DefaultOptions [])
  = Ret (Some open_conn, None)
  /\ fst (Connect net_handle_for_users "localhost:10000" DefaultOptions [])
     = Ret (Some (mkConnection (Some demo_client) None DefaultOptions), None)
  /\ fst (ConnectWithUser net_no_handle "localhost:10000" "hive" "secret"
            DefaultOptions [])
     = Ret (Some (mkConnection (Some demo_client) None DefaultOptions), None).
Proof.
  split; [reflexivity |]. split.
  - exact (proj1 (proj1 (connect_without_handle net_handle_for_users)
                    "localhost:10000" DefaultOptions [] _
                    eq_refl eq_refl eq_refl)).
  - exact (proj1 (proj2 (connect_without_handle net_no_handle)
                    "localhost:10000" "hive" "secret" DefaultOptions [] _
                    eq_refl eq_refl eq_refl)).
Defined.

(** C6, as stated, fails.  Every reply of this server reports ERROR_STATUS.
    Close on an open connection returns the nil error and clears the
    session; Connect and ConnectWithUser return a connection and the nil
    error. *)
Lemma error_status_passes_open_and_close :
  isSuccessStatus (Some status_error) = Ret false
  /\ Close net_status_error demo_str open_conn []
     = (Ret (closed_conn, None),
        [EvCloseSession demo_client (mkTCloseSessionReq (Some demo_session))])
  /\ fst (Connect net_status_error "localhost:10000" DefaultOptions [])
     = Ret (Some open_conn, None)
  /\ fst (ConnectWithUser net_status_error "localhost:10000" "hive" "secret"
            DefaultOptions [])
     = Ret (Some open_conn, None).
Proof. repeat split. Qed.

(** C6, amended.  Only the execute-statement reply is classified.  After
    that RPC a code that is not a success code makes Query and Exec fail
    with an application error although the transport call succeeded.  The
    status of the open-session and close-session replies is not looked at:
    whatever status they carry, Connect and ConnectWithUser return the
    connection with the nil error, and Close returns the nil error and
    clears the session. *)
Theorem status_is_classified_after_execute_only (net : Network)
  (str : Stringers) :
  (forall c cl q l r st,
      thrift c = Some cl ->
      net_ExecuteStatement net l cl (executeRequest c q) = (Some r, None) ->
      exec_Status r = Some st ->
      isSuccessStatus (Some st) = Ret false ->
      fst (Query net str c q l) = Ret (None, Some (applicationError str st))
      /\ fst (Exec net str c q l) = Ret (None, Some (applicationError str st)))
  /\ (forall c h cl l resp,
         session c = Some h ->
         thrift c = Some cl ->
         net_CloseSession net l cl (closeRequest c) = (resp, None) ->
         fst (Close net str c l) = Ret (set_session c None, None))
  /\ (forall hostPort o l r,
         net_Open net l (socket_of hostPort o) = None ->
         net_OpenSession net
           (l ++ [EvTransportOpen (socket_of hostPort o)])%list
           (client_of hostPort o) (openSessionRequest None) = (Some r, None) ->
         fst (Connect net hostPort o l)
         = Ret (Some (mkConnection (Some (client_of hostPort o))
                        (open_SessionHandle r) o), None))
  /\ (forall hostPort u p o l r,
         net_Open net l (socket_of hostPort o) = None ->
         net_OpenSession net
           (l ++ [EvTransportOpen (socket_of hostPort o)])%list
           (client_of hostPort o) (openSessionRequest (Some (u, p)))
         = (Some r, None) ->
         fst (ConnectWithUser net hostPort u p o l)
         = Ret (Some (mkConnection (Some (client_of hostPort o))
                        (open_SessionHandle r) o), None)).
Proof.
  split; [| split; [| split]].
  - intros c cl q l r st Hcl Hr Hst Hcode.
    apply isSuccessStatus_false in Hcode. split.
    + rewrite (Query_status net str c cl q l r st Hcl Hr Hst).
      now rewrite status_test_false.
    + rewrite (Exec_status net str c cl q l r st Hcl Hr Hst).
      now rewrite status_test_false.
  - intros c h cl l resp Hs Hcl Hr.
    now rewrite (Close_rpc_ok net str c h cl l resp Hs Hcl Hr).
  - intros hostPort o l r Ho Hr. rewrite Connect_procedure.
    now rewrite (connectProcedure_reply net hostPort None o l r Ho Hr).
  - intros hostPort u p o l r Ho Hr. rewrite ConnectWithUser_procedure.
    now rewrite (connectProcedure_reply net hostPort (Some (u, p)) o l r Ho Hr).
Qed.

Lemma status_is_classified_after_execute_only_witness :
  fst (Query net_status_error demo_str open_conn "SELECT 1" [])
  = Ret (None, Some (applicationError demo_str status_error))
  /\ fst (Close net_status_error demo_str open_conn [])
     = Ret (set_session open_conn None, None)
  /\ fst (Connect net_status_error "localhost:10000" DefaultOptions [])
     = Ret (Some open_conn, None).
Proof.
  destruct (status_is_classified_after_execute_only net_status_error demo_str)
    as (HQ & HC & HO & _).
  split; [| split].
  - exact (proj1 (HQ open_conn demo_client "SELECT 1" [] _ status_error
                    eq_refl eq_refl eq_refl eq_refl)).
  - exact (HC open_conn demo_session demo_client [] _
             eq_refl eq_refl eq_refl).
  - exact (HO "localhost:10000" DefaultOptions [] _ eq_refl eq_refl).
Defined.

(** C8.  When the close-session RPC fails on an open connection, the error
    Close returns carries both the response and the underlying error.  The
    format has no verb for them, so fmt appends the two operands after the
    message as [%!(EXTRA type=value, type=value)]; the text of the response
    and the text of the underlying error are both part of the message. *)
Theorem Close_error_carries_response_and_cause (net : Network)
  (str : Stringers) (c : Connection) (h : TSessionHandle)
  (cl : TCLIServiceClient) (l : log)
  (resp : option TCloseSessionResp) (e : error) :
  session c = Some h ->
  thrift c = Some cl ->
  net_CloseSession net l cl (closeRequest c) = (resp, Some e) ->
  exists err : error,
    fst (Close net str c l) = Ret (c, Some err)
    /\ err = closeRpcError str resp e
    /\ includes (err_msg err) (TCloseSessionResp_String str resp)
    /\ includes (err_msg err) (err_msg e).
Proof.
  intros Hs Hcl Hr. exists (closeRpcError str resp e).
  rewrite (Close_rpc_error net str c h cl l resp e Hs Hcl Hr).
  split; [reflexivity |]. split; [reflexivity |].
  unfold closeRpcError; cbn [err_msg]. split.
  - apply includes_intro.
  - exists ("Error closing session: %!(EXTRA *inf.TCloseSessionResp="
              ++ TCloseSessionResp_String str resp
              ++ ", " ++ err_type e ++ "="), ")".
    now rewrite !append_assoc.
Qed.

Lemma Close_error_carries_response_and_cause_witness :
  session open_conn = Some demo_session
  /\ thrift open_conn = Some demo_client
  /\ exists err : error,
       fst (Close net_close_fails demo_str open_conn [])
       = Ret (open_conn, Some err)
       /\ err = closeRpcError demo_str None timeout_error
       /\ includes (err_msg err) "<nil>"
       /\ includes (err_msg err) "i/o timeout".
Proof.
  split; [reflexivity |]. split; [reflexivity |].
  exact (Close_error_carries_response_and_cause net_close_fails demo_str
           open_conn demo_session demo_client [] None timeout_error
           eq_refl eq_refl eq_refl).
Defined.

(** C9.  ConnectWithUser is Connect with credentials.  Both run the one
    connect procedure: they open the same socket, built from the endpoint
    and the same transport configuration of the options, and send one
    open-session request with client protocol version 6 through the same
    client.  The request of ConnectWithUser is that of Connect with the
    username and the password set; Connect sets neither.  Nothing else
    differs: where the server answers the two requests alike, the two calls
    return the same result. *)
Theorem ConnectWithUser_is_Connect_with_credentials (net : Network)
  (hostPort u p : string) (o : Options) (l : log) :
  let sock := mkTSocket hostPort (transportConfiguration o) in
  let cl :=
    mkTCLIServiceClient (Some sock)
      (mkTBinaryProtocolFactory (transportConfiguration o)) in
  let req := mkTOpenSessionReq 6 None None [] in
  let req' := mkTOpenSessionReq 6 (Some u) (Some p) [] in
  let l1 := (l ++ [EvTransportOpen sock])%list in
  Connect net hostPort o l = connectProcedure net hostPort None o l
  /\ ConnectWithUser net hostPort u p o l
     = connectProcedure net hostPort (Some (u, p)) o l
  /\ req' = set_Password (set_Username req (Some u)) (Some p)
  /\ match net_Open net l sock with
     | Some _ =>
         snd (Connect net hostPort o l) = l1
         /\ snd (ConnectWithUser net hostPort u p o l) = l1
     | None =>
         snd (Connect net hostPort o l) = (l1 ++ [EvOpenSession cl req])%list
         /\ snd (ConnectWithUser net hostPort u p o l)
            = (l1 ++ [EvOpenSession cl req'])%list
     end
  /\ (net_OpenSession net l1 cl req = net_OpenSession net l1 cl req' ->
      fst (Connect net hostPort o l)
      = fst (ConnectWithUser net hostPort u p o l)).
Proof.
  intros sock cl req req' l1.
  split; [reflexivity |]. split; [reflexivity |]. split; [reflexivity |].
  unfold Connect, ConnectWithUser, bind, TSocket_Open, OpenSession. cbv zeta.
  unfold NewTSocketConf, NewTCLIServiceClientFactory,
    NewTBinaryProtocolFactoryConf.
  change (set_ClientProtocol NewTOpenSessionReq 6) with req.
  change (set_Password (set_Username req (Some u)) (Some p)) with req'.
  fold (transportConfiguration o). fold sock. fold cl. fold l1.
  split.
  - destruct (net_Open net l sock) as [e|]; [split; reflexivity |].
    destruct (net_OpenSession net l1 cl req) as [[r|] [e|]];
      destruct (net_OpenSession net l1 cl req') as [[r'|] [e'|]];
      split; reflexivity.
  - intros Heq. destruct (net_Open net l sock) as [e|]; [reflexivity |].
    rewrite Heq.
    destruct (net_OpenSession net l1 cl req') as [[r'|] [e'|]]; reflexivity.
Qed.

Lemma ConnectWithUser_is_Connect_with_credentials_witness :
  net_OpenSession net_ok
    [EvTransportOpen (socket_of "localhost:10000" DefaultOptions)]
    demo_client (mkTOpenSessionReq 6 None None [])
  = net_OpenSession net_ok
      [EvTransportOpen (socket_of "localhost:10000" DefaultOptions)]
      demo_client (mkTOpenSessionReq 6 (Some "hive") (Some "secret") [])
  /\ fst (Connect net_ok "localhost:10000" DefaultOptions [])
     = fst (ConnectWithUser net_ok "localhost:10000" "hive" "secret"
              DefaultOptions []).
Proof.
  split; [reflexivity |].
  destruct (ConnectWithUser_is_Connect_with_credentials net_ok
              "localhost:10000" "hive" "secret" DefaultOptions [])
    as (_ & _ & _ & _ & Hsame).
  exact (Hsame eq_refl).
Defined.


(** * Further properties of connection.go *)

(** ** Connecting *)

(** X1.  When the socket cannot be opened, Connect and ConnectWithUser
    return no connection and the error of [transport.Open] itself; the
    attempt to open the socket is all that happened, no open-session RPC was
    sent. *)
Theorem connect_transport_failure (net : Network) (hostPort u p : string)
  (o : Options) (l : log) (e : error) :
  net_Open net l (socket_of hostPort o) = Some e ->
  Connect net hostPort o l
  = (Ret (None, Some e), (l ++ [EvTransportOpen (socket_of hostPort o)])%list)
  /\ ConnectWithUser net hostPort u p o l
     = (Ret (None, Some e),
        (l ++ [EvTransportOpen (socket_of hostPort o)])%list).
Proof.
  intros Ho. rewrite Connect_procedure, ConnectWithUser_procedure.
  unfold connectProcedure, bind, TSocket_Open. rewrite Ho. split; reflexivity.
Qed.

Lemma connect_transport_failure_witness :
  net_Open net_open_fails [] (socket_of "localhost:10000" DefaultOptions)
  = Some refused_error
  /\ Connect net_open_fails "localhost:10000" DefaultOptions []
     = (Ret (None, Some refused_error),
        [EvTransportOpen (socket_of "localhost:10000" DefaultOptions)]).
Proof.
  split; [reflexivity |].
  exact (proj1 (connect_transport_failure net_open_fails "localhost:10000"
                  "hive" "secret" DefaultOptions [] refused_error eq_refl)).
Defined.

(** X2.  When the open-session RPC fails, Connect and ConnectWithUser return
    no connection and the error of the RPC as it is, not wrapped in a
    message of their own; a response that came with the error is dropped.
    One open-session request was sent after the socket was opened. *)
Theorem connect_rpc_failure (net : Network) :
  (forall (hostPort : string) (o : Options) (l : log)
     (resp : option TOpenSessionResp) (e : error),
      net_Open net l (socket_of hostPort o) = None ->
      net_OpenSession net
        (l ++ [EvTransportOpen (socket_of hostPort o)])%list
        (client_of hostPort o) (openSessionRequest None) = (resp, Some e) ->
      Connect net hostPort o l
      = (Ret (None, Some e),
         (l ++ [EvTransportOpen (socket_of hostPort o)]
            ++ [EvOpenSession (client_of hostPort o)
                  (openSessionRequest None)])%list))
  /\ (forall (hostPort u p : string) (o : Options) (l : log)
        (resp : option TOpenSessionResp) (e : error),
         net_Open net l (socket_of hostPort o) = None ->
         net_OpenSession net
           (l ++ [EvTransportOpen (socket_of hostPort o)])%list
           (client_of hostPort o) (openSessionRequest (Some (u, p)))
         = (resp, Some e) ->
         ConnectWithUser net hostPort u p o l
         = (Ret (None, Some e),
            (l ++ [EvTransportOpen (socket_of hostPort o)]
               ++ [EvOpenSession (client_of hostPort o)
                     (openSessionRequest (Some (u, p)))])%list)).
Proof.
  split.
  - intros hostPort o l resp e Ho Hr. rewrite Connect_procedure.
    unfold connectProcedure, bind, TSocket_Open, OpenSession.
    rewrite Ho, Hr. unfold ret. now rewrite <- app_assoc.
  - intros hostPort u p o l resp e Ho Hr. rewrite ConnectWithUser_procedure.
    unfold connectProcedure, bind, TSocket_Open, OpenSession.
    rewrite Ho, Hr. unfold ret. now rewrite <- app_assoc.
Qed.

Lemma connect_rpc_failure_witness :
  net_Open net_handshake_fails []
    (socket_of "localhost:10000" DefaultOptions) = None
  /\ fst (Connect net_handshake_fails "localhost:10000" DefaultOptions [])
     = Ret (None, Some timeout_error)
  /\ fst (ConnectWithUser net_handshake_fails "localhost:10000" "hive" "secret"
            DefaultOptions [])
     = Ret (None, Some timeout_error).
Proof.
  split; [reflexivity |].
  destruct (connect_rpc_failure net_handshake_fails) as (HC & HU).
  split.
  - now rewrite (HC "localhost:10000" DefaultOptions [] None timeout_error
                   eq_refl eq_refl).
  - now rewrite (HU "localhost:10000" "hive" "secret" DefaultOptions [] None
                   timeout_error eq_refl eq_refl).
Defined.

(** X3.  Connect, then Close.  When the server issues a session handle and
    the close-session RPC gets through, Connect returns an open connection
    and Close on it returns the nil error and leaves it closed.  The
    close-session request carries the very handle the server issued, and
    the whole exchange is three calls: socket, open-session,
    close-session. *)
Theorem connect_then_close (net : Network) (str : Stringers)
  (hostPort : string) (o : Options) (l : log) (r : TOpenSessionResp)
  (h : TSessionHandle) (resp : option TCloseSessionResp) :
  let sock := socket_of hostPort o in
  let cl := client_of hostPort o in
  let l2 :=
    (l ++ [EvTransportOpen sock]
       ++ [EvOpenSession cl (openSessionRequest None)])%list in
  net_Open net l sock = None ->
  net_OpenSession net (l ++ [EvTransportOpen sock])%list cl
    (openSessionRequest None) = (Some r, None) ->
  open_SessionHandle r = Some h ->
  net_CloseSession net l2 cl (mkTCloseSessionReq (Some h)) = (resp, None) ->
  exists conn : Connection,
    Connect net hostPort o l = (Ret (Some conn, None), l2)
    /\ isOpen conn = true
    /\ options conn = o
    /\ Close net str conn l2
       = (Ret (mkConnection (Some cl) None o, None),
          (l2 ++ [EvCloseSession cl (mkTCloseSessionReq (Some h))])%list)
    /\ isOpen (mkConnection (Some cl) None o) = false.
Proof.
  intros sock cl l2 Ho Hr Hh Hc. subst sock cl l2.
  exists (mkConnection (Some (client_of hostPort o)) (Some h) o).
  rewrite Connect_procedure.
  rewrite (connectProcedure_reply net hostPort None o l r Ho Hr), Hh.
  split; [reflexivity |]. split; [reflexivity |]. split; [reflexivity |].
  split; [| reflexivity].
  now rewrite (Close_rpc_ok net str
                 (mkConnection (Some (client_of hostPort o)) (Some h) o)
                 h (client_of hostPort o) _ resp eq_refl eq_refl Hc).
Qed.

Lemma connect_then_close_witness :
  net_Open net_ok [] (socket_of "localhost:10000" DefaultOptions) = None
  /\ exists conn : Connection,
       Connect net_ok "localhost:10000" DefaultOptions []
       = (Ret (Some conn, None),
          [EvTransportOpen (socket_of "localhost:10000" DefaultOptions);
           EvOpenSession demo_client (openSessionRequest None)])
       /\ isOpen conn = true
       /\ options conn = DefaultOptions
       /\ Close net_ok demo_str conn
            [EvTransportOpen (socket_of "localhost:10000" DefaultOptions);
             EvOpenSession demo_client (openSessionRequest None)]
          = (Ret (closed_conn, None),
             [EvTransportOpen (socket_of "localhost:10000" DefaultOptions);
              EvOpenSession demo_client (openSessionRequest None);
              EvCloseSession demo_client
                (mkTCloseSessionReq (Some demo_session))])
       /\ isOpen closed_conn = false.
Proof.
  split; [reflexivity |].
  exact (connect_then_close net_ok demo_str "localhost:10000" DefaultOptions
           [] _ demo_session _ eq_refl eq_refl eq_refl eq_refl).
Defined.

(** ** Closing *)

(** Case analysis of a finished Close. *)
Ltac run_close H :=
  unfold Close in H;
  let Ho := fresh "Hopen" in
  destruct (isOpen _) eqn:Ho;
  [ unfold bind, CloseSession in H;
    let Hcl := fresh "Hcl" in
    destruct (thrift _) as [?cl|] eqn:Hcl;
    [ destruct (net_CloseSession _ _ _ _) as [?resp [?e|]] | ];
    inversion H; subst; clear H
  | inversion H; subst; clear H ].

(** X4.  What Close returns tells the state it leaves.  A nil error means
    the connection is closed, whether Close had to send the RPC or found the
    connection closed already, and any further Close is a no-op that sends
    nothing.  An error means the connection is exactly as it was, still
    open. *)
Theorem Close_result_tells_state (net : Network) (str : Stringers)
  (c c1 : Connection) (err : option error) (l l1 : log) :
  Close net str c l = (Ret (c1, err), l1) ->
  (err = None ->
   isOpen c1 = false /\ Close net str c1 l1 = (Ret (c1, None), l1))
  /\ (forall e : error, err = Some e -> c1 = c /\ isOpen c1 = true).
Proof.
  intros H. run_close H.
  - split; [discriminate |]. intros e0 _. now split.
  - split; [| discriminate]. intros _. split; [reflexivity |].
    now apply Close_closed.
  - split; [| discriminate]. intros _. split; [assumption |].
    now apply Close_closed.
Qed.

Lemma Close_result_tells_state_witness :
  Close net_ok demo_str open_conn []
  = (Ret (closed_conn, None),
     [EvCloseSession demo_client (closeRequest open_conn)])
  /\ isOpen closed_conn = false
  /\ Close net_ok demo_str closed_conn
       [EvCloseSession demo_client (closeRequest open_conn)]
     = (Ret (closed_conn, None),
        [EvCloseSession demo_client (closeRequest open_conn)]).
Proof.
  split; [reflexivity |].
  exact (proj1 (Close_result_tells_state net_ok demo_str open_conn closed_conn
                  None [] _ eq_refl) eq_refl).
Defined.

(** X5.  Close touches the session handle only.  Whatever it returns, the
    connection keeps its client and its options, and its session handle is
    either the one it had or nil; Close never installs another handle. *)
Theorem Close_changes_session_only (net : Network) (str : Stringers)
  (c c1 : Connection) (err : option error) (l l1 : log) :
  Close net str c l = (Ret (c1, err), l1) ->
  thrift c1 = thrift c
  /\ options c1 = options c
  /\ (session c1 = session c \/ session c1 = None).
Proof.
  intros H.
  run_close H; (split; [now rewrite ?Hcl | split; [reflexivity |]]).
  - now left.
  - now right.
  - now left.
Qed.

Lemma Close_changes_session_only_witness :
  Close net_status_error demo_str open_conn []
  = (Ret (closed_conn, None),
     [EvCloseSession demo_client (closeRequest open_conn)])
  /\ thrift closed_conn = thrift open_conn
  /\ options closed_conn = options open_conn
  /\ (session closed_conn = session open_conn \/ session closed_conn = None).
Proof.
  split; [reflexivity |].
  exact (Close_changes_session_only net_status_error demo_str open_conn
           closed_conn None [] _ eq_refl).
Defined.

(** ** Statements *)

(** X6.  Query and Exec are one submission with two result shapes.  On every
    connection, statement and server they send the same traffic, panic
    together, fail together with the same error, and succeed together; on
    success the row set of Query is built from the connection's client and
    options and the operation handle of the very response Exec returns. *)
Theorem Query_and_Exec_agree (net : Network) (str : Stringers)
  (c : Connection) (q : string) (l : log) :
  snd (Query net str c q l) = snd (Exec net str c q l)
  /\ fst (Query net str c q l)
     = match fst (Exec net str c q l) with
       | Ret (resp, err) =>
           Ret (option_map
                  (fun r => newRowSet (thrift c) (exec_OperationHandle r)
                              (options c))
                  resp,
                err)
       | Panic reason => Panic reason
       end.
Proof.
  unfold Query, Exec, bind, ExecuteStatement. cbv zeta.
  destruct (thrift c) as [cl|]; [| split; reflexivity].
  destruct (net_ExecuteStatement net l cl _) as [[r|] [e|]];
    try (split; reflexivity).
  unfold deref, lift, ret.
  destruct (isSuccessStatus (exec_Status r)) as [[|]|]; split; reflexivity.
Qed.

(** X7.  Every result pair of this file holds a value or an error, never
    both and never neither: a row set or an error from Query, a response or
    an error from Exec, a connection or an error from Connect and from
    ConnectWithUser. *)
Theorem results_hold_value_or_error (net : Network) (str : Stringers)
  (c : Connection) (q hostPort u p : string) (o : Options) (l : log) :
  value_xor_error (fst (Query net str c q l))
  /\ value_xor_error (fst (Exec net str c q l))
  /\ value_xor_error (fst (Connect net hostPort o l))
  /\ value_xor_error (fst (ConnectWithUser net hostPort u p o l)).
Proof.
  split; [| split; [| split]].
  - unfold Query, bind, ExecuteStatement. cbv zeta.
    destruct (thrift c) as [cl|]; [| exact I].
    destruct (net_ExecuteStatement net l cl _) as [[r|] [e|]]; try exact I.
    unfold deref, lift, ret.
    destruct (isSuccessStatus (exec_Status r)) as [[|]|]; exact I.
  - unfold Exec, bind, ExecuteStatement. cbv zeta.
    destruct (thrift c) as [cl|]; [| exact I].
    destruct (net_ExecuteStatement net l cl _) as [[r|] [e|]]; try exact I.
    unfold deref, lift, ret.
    destruct (isSuccessStatus (exec_Status r)) as [[|]|]; exact I.
  - rewrite Connect_procedure.
    unfold connectProcedure, bind, TSocket_Open, OpenSession.
    destruct (net_Open net l _) as [e|]; [exact I |].
    destruct (net_OpenSession net _ _ _) as [[r|] [e|]]; exact I.
  - rewrite ConnectWithUser_procedure.
    unfold connectProcedure, bind, TSocket_Open, OpenSession.
    destruct (net_Open net l _) as [e|]; [exact I |].
    destruct (net_OpenSession net _ _ _) as [[r|] [e|]]; exact I.
Qed.

(** X8.  The traffic of a call is fixed before the reply is seen.  Query and
    Exec send one execute-statement request, holding the connection's
    session handle and the statement as given, and Close on an open
    connection sends one close-session request holding the session handle;
    Close on a closed connection sends nothing.  Earlier log entries are
    kept, and no reply, failed or not, makes any of them send again. *)
Theorem traffic_is_one_request (net : Network) (str : Stringers)
  (c : Connection) (q : string) (l : log) :
  snd (Query net str c q l) = (l ++ statement_traffic c q)%list
  /\ snd (Exec net str c q l) = (l ++ statement_traffic c q)%list
  /\ snd (Close net str c l) = (l ++ close_traffic c)%list
  /\ (length (statement_traffic c q) <= 1)%nat
  /\ (length (close_traffic c) <= 1)%nat
  /\ (isOpen c = false -> close_traffic c = []).
Proof.
  unfold statement_traffic, close_traffic, isOpen.
  split; [| split; [| split; [| split; [| split]]]].
  - destruct (thrift c) as [cl|] eqn:Hcl.
    + now apply Query_log.
    + unfold Query, bind, ExecuteStatement. rewrite Hcl. simpl.
      now rewrite app_nil_r.
  - destruct (thrift c) as [cl|] eqn:Hcl.
    + now apply Exec_log.
    + unfold Exec, bind, ExecuteStatement. rewrite Hcl. simpl.
      now rewrite app_nil_r.
  - destruct (session c) as [h|] eqn:Hs.
    + destruct (thrift c) as [cl|] eqn:Hcl.
      * now apply Close_log with h.
      * unfold Close, bind, CloseSession.
        rewrite (isOpen_session c h Hs), Hcl. simpl. now rewrite app_nil_r.
    + rewrite Close_closed; [simpl; now rewrite app_nil_r |].
      unfold isOpen. now rewrite Hs.
  - destruct (thrift c); simpl; lia.
  - destruct (session c); [destruct (thrift c) |]; simpl; lia.
  - destruct (session c); [discriminate | reflexivity].
Qed.

Lemma traffic_is_one_request_witness :
  isOpen closed_conn = false
  /\ close_traffic closed_conn = []
  /\ snd (Query net_execute_fails demo_str open_conn "SELECT 1" [])
     = [EvExecuteStatement demo_client
          (mkTExecuteStatementReq (Some demo_session) "SELECT 1" [] false)].
Proof.
  destruct (traffic_is_one_request net_execute_fails demo_str closed_conn
              "SELECT 1" []) as (_ & _ & _ & _ & _ & Hclosed).
  destruct (traffic_is_one_request net_execute_fails demo_str open_conn
              "SELECT 1" []) as (HQ & _).
  split; [reflexivity |]. split; [exact (Hclosed eq_refl) | exact HQ].
Defined.

(** ** Replies without a response *)

(** X9.  Connect and ConnectWithUser read the session handle through the
    response pointer without a nil test.  When the open-session RPC comes
    back with no error and no response, both panic on the nil dereference;
    neither returns an error. *)
Theorem connect_nil_response_panics (net : Network) :
  (forall (hostPort : string) (o : Options) (l : log),
      net_Open net l (socket_of hostPort o) = None ->
      net_OpenSession net
        (l ++ [EvTransportOpen (socket_of hostPort o)])%list
        (client_of hostPort o) (openSessionRequest None) = (None, None) ->
      fst (Connect net hostPort o l) = Panic nil_dereference)
  /\ (forall (hostPort u p : string) (o : Options) (l : log),
         net_Open net l (socket_of hostPort o) = None ->
         net_OpenSession net
           (l ++ [EvTransportOpen (socket_of hostPort o)])%list
           (client_of hostPort o) (openSessionRequest (Some (u, p)))
         = (None, None) ->
         fst (ConnectWithUser net hostPort u p o l) = Panic nil_dereference).
Proof.
  split.
  - intros hostPort o l Ho Hr. rewrite Connect_procedure.
    unfold connectProcedure, bind, TSocket_Open, OpenSession.
    now rewrite Ho, Hr.
  - intros hostPort u p o l Ho Hr. rewrite ConnectWithUser_procedure.
    unfold connectProcedure, bind, TSocket_Open, OpenSession.
    now rewrite Ho, Hr.
Qed.

Lemma connect_nil_response_panics_witness :
  net_Open net_nil_reply [] (socket_of "localhost:10000" DefaultOptions) = None
  /\ fst (Connect net_nil_reply "localhost:10000" DefaultOptions [])
     = Panic nil_dereference
  /\ fst (ConnectWithUser net_nil_reply "localhost:10000" "hive" "secret"
            DefaultOptions [])
     = Panic nil_dereference.
Proof.
  split; [reflexivity |].
  destruct (connect_nil_response_panics net_nil_reply) as (HC & HU).
  split.
  - exact (HC "localhost:10000" DefaultOptions [] eq_refl eq_refl).
  - exact (HU "localhost:10000" "hive" "secret" DefaultOptions []
             eq_refl eq_refl).
Defined.

(** X10.  Query and Exec read the status through the response pointer
    without a nil test.  When the execute-statement RPC comes back with no
    error and no response, both panic on the nil dereference, after the
    request has gone out. *)
Theorem statement_nil_response_panics (net : Network) (str : Stringers)
  (c : Connection) (cl : TCLIServiceClient) (q : string) (l : log) :
  thrift c = Some cl ->
  net_ExecuteStatement net l cl (executeRequest c q) = (None, None) ->
  Query net str c q l
  = (Panic nil_dereference,
     (l ++ [EvExecuteStatement cl (executeRequest c q)])%list)
  /\ Exec net str c q l
     = (Panic nil_dereference,
        (l ++ [EvExecuteStatement cl (executeRequest c q)])%list).
Proof.
  intros Hcl Hr. split; run_statement Hcl; now rewrite Hr.
Qed.

Lemma statement_nil_response_panics_witness :
  thrift open_conn = Some demo_client
  /\ fst (Query net_nil_reply demo_str open_conn "SELECT 1" [])
     = Panic nil_dereference
  /\ fst (Exec net_nil_reply demo_str open_conn "SELECT 1" [])
     = Panic nil_dereference.
Proof.
  split; [reflexivity |].
  destruct (statement_nil_response_panics net_nil_reply demo_str open_conn
              demo_client "SELECT 1" [] eq_refl eq_refl) as (HQ & HE).
  split; [now rewrite HQ | now rewrite HE].
Defined.

(** ** A failed statement RPC *)

(** X11.  When the execute-statement RPC fails, Query returns no row set and
    Exec no response, also when a response came with the error.  Both
    return a new error whose message is "Error in ExecuteStatement: ", the
    text of the response, a comma, and the text of the underlying error;
    unlike Connect they do not hand back the RPC's own error value. *)
Theorem statement_rpc_failure (net : Network) (str : Stringers)
  (c : Connection) (cl : TCLIServiceClient) (q : string) (l : log)
  (resp : option TExecuteStatementResp) (e : error) :
  thrift c = Some cl ->
  net_ExecuteStatement net l cl (executeRequest c q) = (resp, Some e) ->
  fst (Query net str c q l) = Ret (None, Some (executeRpcError str resp e))
  /\ fst (Exec net str c q l) = Ret (None, Some (executeRpcError str resp e))
  /\ err_type (executeRpcError str resp e) = "*errors.errorString"
  /\ includes (err_msg (executeRpcError str resp e))
       (TExecuteStatementResp_String str resp)
  /\ includes (err_msg (executeRpcError str resp e)) (err_msg e).
Proof.
  intros Hcl Hr.
  split; [now apply Query_rpc_error with cl |].
  split; [now apply Exec_rpc_error with cl |].
  split; [reflexivity |].
  unfold executeRpcError; cbn [err_msg]. split.
  - apply includes_intro.
  - exists ("Error in ExecuteStatement: "
              ++ TExecuteStatementResp_String str resp ++ ", "), "".
    now rewrite append_empty_r, !append_assoc.
Qed.

Lemma statement_rpc_failure_witness :
  thrift open_conn = Some demo_client
  /\ fst (Query net_execute_fails demo_str open_conn "SELECT 1" [])
     = Ret (None,
            Some (mkError "*errors.errorString"
                    "Error in ExecuteStatement: <nil>, i/o timeout"))
  /\ fst (Exec net_execute_fails demo_str open_conn "SELECT 1" [])
     = Ret (None,
            Some (mkError "*errors.errorString"
                    "Error in ExecuteStatement: <nil>, i/o timeout")).
Proof.
  split; [reflexivity |].
  destruct (statement_rpc_failure net_execute_fails demo_str open_conn
              demo_client "SELECT 1" [] None timeout_error eq_refl eq_refl)
    as (HQ & HE & _).
  split; [exact HQ | exact HE].
Defined.

(** ** Options *)

(** X12.  Connecting reads the eight transport fields of the options and
    nothing else.  Two option records with the same transport fields open
    the same socket, send the same open-session request and end the same
    way; they differ only in the options the returned connection stores.
    So the Host, Port, Username, Password, Database, PollIntervalSeconds
    and BatchSize of the options take no part in connecting: the endpoint
    is the hostPort argument, and credentials are sent by ConnectWithUser
    only, from its own arguments. *)
Theorem connect_reads_transport_options_only (net : Network)
  (hostPort u p : string) (o o' : Options) (l : log) :
  transportConfiguration o = transportConfiguration o' ->
  Connect net hostPort o' l
  = (with_options o' (fst (Connect net hostPort o l)),
     snd (Connect net hostPort o l))
  /\ ConnectWithUser net hostPort u p o' l
     = (with_options o' (fst (ConnectWithUser net hostPort u p o l)),
        snd (ConnectWithUser net hostPort u p o l)).
Proof.
  intros Htc. rewrite !Connect_procedure, !ConnectWithUser_procedure.
  unfold connectProcedure, bind, TSocket_Open, OpenSession.
  unfold client_of, socket_of. rewrite <- Htc.
  split.
  - destruct (net_Open net l _) as [e|]; [reflexivity |].
    destruct (net_OpenSession net _ _ _) as [[r|] [e|]]; reflexivity.
  - destruct (net_Open net l _) as [e|]; [reflexivity |].
    destruct (net_OpenSession net _ _ _) as [[r|] [e|]]; reflexivity.
Qed.

Lemma connect_reads_transport_options_only_witness :
  transportConfiguration DefaultOptions = transportConfiguration named_options
  /\ Connect net_ok "localhost:10000" named_options []
     = (Ret (Some (mkConnection (Some demo_client) (Some demo_session)
                     named_options), None),
        [EvTransportOpen (socket_of "localhost:10000" DefaultOptions);
         EvOpenSession demo_client (mkTOpenSessionReq 6 None None [])]).
Proof.
  split; [reflexivity |].
  exact (proj1 (connect_reads_transport_options_only net_ok "localhost:10000"
                  "hive" "secret" DefaultOptions named_options [] eq_refl)).
Defined.
